(** * Midpoint circle rasteriser: graphics/midpoint_circle.py

    A shallow embedding of the module and the properties of its
    specification.  Python objects are modelled by the type [pyval]; raising
    an exception is modelled by the [Raise] constructor of [result].

    Scope of the value model: [None], [bool], [int], [str] (as a sequence of
    ASCII characters), [tuple] and [list].  Floating-point numbers, bytes,
    dictionaries and user classes are not part of the model. *)

From Stdlib Require Import ZArith List Sorted String Ascii Bool Lia Wf_nat.
From Equations Require Import Equations.
Import ListNotations.

Set Warnings "-register-all".
Local Open Scope Z_scope.

(** ** Python values and exceptions *)

Inductive pyval : Type :=
| PNone
| PBool (b : bool)
| PInt (z : Z)
| PStr (s : string)
| PTuple (items : list pyval)
| PList (items : list pyval).

Inductive exn : Type :=
| TypeError
| ValueError
| IndexError.

Inductive result (A : Type) : Type :=
| Ok (a : A)
| Raise (e : exn).

Arguments Ok {A} a.
Arguments Raise {A} e.

Definition bind {A B} (c : result A) (k : A -> result B) : result B :=
  match c with
  | Ok a => k a
  | Raise e => Raise e
  end.

Notation "x <- c ;; k" := (bind c (fun x => k))
  (at level 61, c at next level, right associativity).

Definition exn_eqb (a b : exn) : bool :=
  match a, b with
  | TypeError, TypeError | ValueError, ValueError | IndexError, IndexError => true
  | _, _ => false
  end.

(** [try: c  except e1: pass  except e2: pass] followed by [fallback]:
    the listed exception kinds are swallowed, any other one propagates. *)
Definition try_except {A} (c : result A) (caught : list exn) (fallback : result A)
  : result A :=
  match c with
  | Ok a => Ok a
  | Raise e => if existsb (exn_eqb e) caught then fallback else Raise e
  end.

(** ** The built-ins the module relies on *)

(** Truth value of an object, as tested by [if] and [and]. *)
Definition truthy (v : pyval) : bool :=
  match v with
  | PNone => false
  | PBool b => b
  | PInt z => negb (z =? 0)
  | PStr s => negb (String.length s =? 0)%nat
  | PTuple l | PList l => negb (List.length l =? 0)%nat
  end.

(** [bool] is a subclass of [int]: both take part in integer arithmetic. *)
Definition as_num (v : pyval) : option Z :=
  match v with
  | PBool b => Some (if b then 1 else 0)
  | PInt z => Some z
  | _ => None
  end.

(** [arg[i]] for a non-negative literal index. *)
Definition py_getitem (arg : pyval) (i : nat) : result pyval :=
  match arg with
  | PStr s =>
      match String.get i s with
      | Some c => Ok (PStr (String c EmptyString))
      | None => Raise IndexError
      end
  | PTuple l | PList l =>
      match nth_error l i with
      | Some v => Ok v
      | None => Raise IndexError
      end
  | PNone | PBool _ | PInt _ => Raise TypeError
  end.

(** [len(arg)] *)
Definition py_len (arg : pyval) : result Z :=
  match arg with
  | PStr s => Ok (Z.of_nat (String.length s))
  | PTuple l | PList l => Ok (Z.of_nat (List.length l))
  | PNone | PBool _ | PInt _ => Raise TypeError
  end.

(** Decimal literals accepted by [int(str)]: optional surrounding white
    space, an optional sign, then digits with single underscores between
    them. *)
Definition is_space (c : ascii) : bool :=
  let n := nat_of_ascii c in
  ((9 <=? n) && (n <=? 13) || (n =? 32))%nat.

Definition digit_of (c : ascii) : option Z :=
  let n := nat_of_ascii c in
  if ((48 <=? n) && (n <=? 57))%nat then Some (Z.of_nat n - 48) else None.

Fixpoint lstrip (s : string) : string :=
  match s with
  | String c s' => if is_space c then lstrip s' else s
  | EmptyString => EmptyString
  end.

Fixpoint rev_string (s acc : string) : string :=
  match s with
  | String c s' => rev_string s' (String c acc)
  | EmptyString => acc
  end.

Definition strip (s : string) : string :=
  rev_string (lstrip (rev_string (lstrip s) EmptyString)) EmptyString.

Fixpoint parse_digits (s : string) (acc : Z) (after_digit : bool) : option Z :=
  match s with
  | EmptyString => if after_digit then Some acc else None
  | String c s' =>
      match digit_of c with
      | Some d => parse_digits s' (10 * acc + d) true
      | None =>
          if (Ascii.eqb c "_"%char && after_digit)%bool
          then parse_digits s' acc false
          else None
      end
  end.

Definition int_of_str (s : string) : option Z :=
  match strip s with
  | String "+"%char r => parse_digits r 0 false
  | String "-"%char r => option_map Z.opp (parse_digits r 0 false)
  | t => parse_digits t 0 false
  end.

(** [int(arg)] *)
Definition py_int (arg : pyval) : result Z :=
  match arg with
  | PBool b => Ok (if b then 1 else 0)
  | PInt z => Ok z
  | PStr s =>
      match int_of_str s with
      | Some z => Ok z
      | None => Raise ValueError
      end
  | PNone | PTuple _ | PList _ => Raise TypeError
  end.

(** Unary minus and the binary operators on the objects of the model. *)
Definition py_neg (a : pyval) : result pyval :=
  match as_num a with
  | Some x => Ok (PInt (- x))
  | None => Raise TypeError
  end.

Definition py_sub (a b : pyval) : result pyval :=
  match as_num a, as_num b with
  | Some x, Some y => Ok (PInt (x - y))
  | _, _ => Raise TypeError
  end.

Definition py_add (a b : pyval) : result pyval :=
  match a, b with
  | PStr s, PStr t => Ok (PStr (String.append s t))
  | PTuple l, PTuple m => Ok (PTuple (l ++ m))
  | PList l, PList m => Ok (PList (l ++ m))
  | _, _ =>
      match as_num a, as_num b with
      | Some x, Some y => Ok (PInt (x + y))
      | _, _ => Raise TypeError
      end
  end.

(** An operand that must be a number: [-radius], [2 * radius], [range]. *)
Definition py_num (a : pyval) : result Z :=
  match as_num a with
  | Some x => Ok x
  | None => Raise TypeError
  end.

(** [range(lo, hi)] *)
Definition py_range (lo hi : Z) : list Z :=
  map (fun i => lo + Z.of_nat i) (seq 0 (Z.to_nat (hi - lo))).

(** A [for] loop whose body may raise: the state is threaded through the
    iterations and the first exception ends the loop. *)
Fixpoint for_each {A S} (xs : list A) (body : A -> S -> result S) (s : S)
  : result S :=
  match xs with
  | [] => Ok s
  | a :: xs' => s' <- body a s ;; for_each xs' body s'
  end.

(** ** The module *)

(** [_is_int]: lines 160-180. *)
Definition _is_int (arg : pyval) : result bool :=
  try_except (_ <- py_int arg ;; Ok true) [TypeError; ValueError] (Ok false).

(** [_is_indexable]: lines 137-157.  [a and b] evaluates to [a] when [a] is
    false and to [b] otherwise, so the returned object is [arg[0]] itself
    when that is false. *)
Definition _is_indexable (arg : pyval) : result pyval :=
  try_except
    (a0 <- py_getitem arg 0 ;;
     if truthy a0 then (n <- py_len arg ;; Ok (PBool (n =? 2))) else Ok a0)
    [TypeError; IndexError]
    (Ok (PBool false)).

(** [_validate_input]: lines 112-134. *)
Definition _validate_input (arg : pyval) : result bool :=
  ix <- _is_indexable arg ;;
  if truthy ix then
    a0 <- py_getitem arg 0 ;;
    i0 <- _is_int a0 ;;
    ok <- (if i0 then a1 <- py_getitem arg 1 ;; _is_int a1 else Ok false) ;;
    if ok then Ok true else Raise ValueError
  else Raise TypeError.

(** [_get_circle_quadrants]: lines 53-77. *)
Definition _get_circle_quadrants (center current_point : pyval)
  : result (list pyval) :=
  v <- _validate_input center ;;
  ok <- (if v then _validate_input current_point else Ok false) ;;
  if ok then
    c0 <- py_getitem center 0 ;; p0 <- py_getitem current_point 0 ;;
    q1x <- py_sub c0 p0 ;;
    c1 <- py_getitem center 1 ;; p1 <- py_getitem current_point 1 ;;
    q1y <- py_add c1 p1 ;;
    q2x <- py_sub c0 p1 ;;
    q2y <- py_sub c1 p0 ;;
    q3x <- py_add c0 p0 ;;
    q3y <- py_sub c1 p1 ;;
    q4x <- py_add c0 p1 ;;
    q4y <- py_add c1 p0 ;;
    Ok [PTuple [q1x; q1y]; PTuple [q2x; q2y]; PTuple [q3x; q3y]; PTuple [q4x; q4y]]
  else Ok [].

(** The variables of the stepping loop of [get_circle_vectors].  [radius]
    starts as the caller's object and is overwritten with the integer
    [error] by every iteration. *)
Record loop_state : Type := LoopState {
  st_x : Z;
  st_y : Z;
  st_error : Z;
  st_radius : pyval
}.

(** Lines 41-47: the assignments of one iteration. *)
Definition loop_body (st : loop_state) : loop_state :=
  let radius := st_error st in
  let '(y, error) :=
    if radius <=? st_y st
    then (st_y st + 1, st_error st + ((st_y st + 1) * 2 + 1))
    else (st_y st, st_error st) in
  let '(x, error) :=
    if (radius >? st_x st) || (error >? y)
    then (st_x st + 1, error + ((st_x st + 1) * 2 + 1))
    else (st_x st, error) in
  LoopState x y error (PInt radius).

(** Termination measure of the loop.  An iteration that advances [x] may
    raise the first summand by at most [- 2 * x - 2], which the drop of
    [x * x] outweighs; an iteration that leaves [x] unchanged advances [y]
    and lowers the first summand. *)
Definition loop_measure (st : loop_state) : nat :=
  Z.to_nat
    (Z.max 0 (st_x st - st_error st + 1 + Z.min (st_y st) 0 * Z.min (st_y st) 0)
     + st_x st * st_x st).

(** Case analysis on the comparisons of [loop_body], then arithmetic. *)
Ltac split_comparisons :=
  repeat match goal with
    | |- context [?a <=? ?b] => destruct (Z.leb_spec a b); simpl
    | |- context [?a >? ?b] => destruct (Z.gtb_spec a b); simpl
    end.

Ltac loop_measure_decreases :=
  match goal with
  | st : loop_state |- _ =>
      destruct st as [x0 y0 e0 r0]; unfold loop_measure, loop_body in *;
      simpl in *; split_comparisons;
      destruct (Z_lt_le_dec y0 0);
      try rewrite (Z.min_l y0 0) by lia; try rewrite (Z.min_r y0 0) by lia;
      try rewrite (Z.min_l (y0 + 1) 0) by lia;
      try rewrite (Z.min_r (y0 + 1) 0) by lia;
      nia
  end.

(** Lines 39-47: the [while] loop, threading the result list.  An exception
    raised by [_get_circle_quadrants] leaves the loop. *)
Equations? perimeter_loop (center : pyval) (st : loop_state)
    (circle_vectors : list pyval) : result (list pyval * loop_state)
    by wf (loop_measure st) lt :=
  perimeter_loop center st circle_vectors with Z_lt_dec (st_x st) 0 => {
    | left _ with _get_circle_quadrants center
                    (PTuple [PInt (st_x st); PInt (st_y st)]) => {
        | Ok quadrants :=
            perimeter_loop center (loop_body st) (circle_vectors ++ quadrants)
        | Raise e := Raise e }
    | right _ := Ok (circle_vectors, st) }.
Proof. loop_measure_decreases. Qed.

(** [_get_vectors_inside_circle]: lines 80-109.  [-radius] is the first
    operation on [radius] and raises [TypeError] unless it is a number. *)
Definition _get_vectors_inside_circle (center radius : pyval)
  : result (list pyval) :=
  v <- _validate_input center ;;
  ok <- (if v then _is_int radius else Ok false) ;;
  if ok then
    r <- py_num radius ;;
    let boundary := py_range (- r) (r + 1) in
    for_each boundary (fun y circle_vectors =>
      for_each boundary (fun x circle_vectors =>
        if x ^ 2 + y ^ 2 <=? r ^ 2 then
          c0 <- py_getitem center 0 ;; px <- py_add c0 (PInt x) ;;
          c1 <- py_getitem center 1 ;; py <- py_add c1 (PInt y) ;;
          Ok (circle_vectors ++ [PTuple [px; py]])
        else Ok circle_vectors) circle_vectors) []
  else Ok [].

(** The state in which the loop is entered: lines 36-38. *)
Definition initial_state (radius : pyval) (r : Z) : loop_state :=
  LoopState (- r) 0 (2 - 2 * r) radius.

(** [get_circle_vectors]: lines 10-50.  [-radius] on line 36 raises
    [TypeError] unless [radius] is a number; from there on [x], [y] and
    [error] are integers. *)
Definition get_circle_vectors (center radius : pyval) (fill : bool)
  : result (list pyval) :=
  v <- _validate_input center ;;
  ok <- (if v then _is_int radius else Ok false) ;;
  if ok then
    r <- py_num radius ;;
    out <- perimeter_loop center (initial_state radius r) [] ;;
    let '(circle_vectors, st) := out in
    if fill then
      inside <- _get_vectors_inside_circle center (st_radius st) ;;
      Ok (circle_vectors ++ inside)
    else Ok circle_vectors
  else Ok [].

(** The point [(px, py)] as a Python tuple of two integers. *)
Definition pt (px py : Z) : pyval := PTuple [PInt px; PInt py].

(** Whether [int(v)] succeeds. *)
Definition int_convertible (v : pyval) : bool :=
  match py_int v with
  | Ok _ => true
  | Raise _ => false
  end.

(** The integer coordinates of a two-element tuple or list of numbers. *)
Definition coords (c : pyval) : option (Z * Z) :=
  match c with
  | PTuple [a; b] | PList [a; b] =>
      match as_num a, as_num b with
      | Some ca, Some cb => Some (ca, cb)
      | _, _ => None
      end
  | _ => None
  end.

(** The two items of an object that has exactly two. *)
Definition two_items (arg : pyval) : option (pyval * pyval) :=
  match arg with
  | PTuple [a; b] | PList [a; b] => Some (a, b)
  | PStr (String a (String b EmptyString)) =>
      Some (PStr (String a EmptyString), PStr (String b EmptyString))
  | _ => None
  end.

(** A center in the sense of the specification: a pair of integers that
    passes [_validate_input]. *)
Definition valid_center (c : pyval) (cx cy : Z) : Prop :=
  coords c = Some (cx, cy) /\ _validate_input c = Ok true.

(** The four reflections of the offset [(ox, oy)] about [(cx, cy)]. *)
Definition quadrant_points (cx cy ox oy : Z) : list pyval :=
  [pt (cx - ox) (cy + oy); pt (cx - oy) (cy - ox);
   pt (cx + ox) (cy - oy); pt (cx + oy) (cy + ox)].

(** Row-major order on offsets [(dx, dy)]: by [dy], then by [dx]. *)
Definition row_major_lt (p q : Z * Z) : Prop :=
  snd p < snd q \/ (snd p = snd q /\ fst p < fst q).

(** Big-step reading of the [while] loop: started in [st], the loop runs
    its body once in each state of [visited], in this order, and is left in
    [final]. *)
Inductive loop_run : loop_state -> list loop_state -> loop_state -> Prop :=
| run_exit (st : loop_state) :
    0 <= st_x st -> loop_run st [] st
| run_iter (st : loop_state) (visited : list loop_state) (final : loop_state) :
    st_x st < 0 -> loop_run (loop_body st) visited final ->
    loop_run st (st :: visited) final.

(** The points appended while the loop goes through [visited]. *)
Definition emitted (cx cy : Z) (visited : list loop_state) : list pyval :=
  flat_map (fun s => quadrant_points cx cy (st_x s) (st_y s)) visited.

(** The relation between the caller's radius [r] and the loop variables. *)
Definition error_invariant (r : Z) (st : loop_state) : Prop :=
  st_error st = (st_x st + 1) * (st_x st + 1) + (st_y st + 1) * (st_y st + 1) - r * r.

(** The offsets of one scan line, then of the whole scan. *)
Definition row_offsets (r dy : Z) : list (Z * Z) :=
  map (fun dx => (dx, dy))
    (filter (fun dx => dx ^ 2 + dy ^ 2 <=? r ^ 2) (py_range (- r) (r + 1))).

Definition disk_offsets (r : Z) : list (Z * Z) :=
  flat_map (row_offsets r) (py_range (- r) (r + 1)).

Definition shift (cx cy : Z) (o : Z * Z) : pyval :=
  pt (cx + fst o) (cy + snd o).

(** What the loop keeps for a caller's radius [r >= 1]: the offset stays in
    the quadrant between [(-r, 0)] and [(0, r)], and the square of its
    distance to the origin stays within [r] of [r * r]. *)
Definition arc_invariant (r : Z) (st : loop_state) : Prop :=
  error_invariant r st /\
  - r <= st_x st <= 0 /\ 0 <= st_y st <= r /\
  - r < st_x st * st_x st + st_y st * st_y st - r * r < r.

(** * Properties *)

(** ** The doctests of the module *)

Example doctest_get_circle_vectors_42_1 :
  get_circle_vectors (pt 42 42) (PInt 1) false =
    Ok [pt 43 42; pt 42 43; pt 41 42; pt 42 41].
Proof. vm_compute. reflexivity. Qed.

Example doctest_get_circle_quadrants :
  _get_circle_quadrants (pt 50 50) (pt (-1) 0) =
    Ok [pt 51 50; pt 50 51; pt 49 50; pt 50 49].
Proof. reflexivity. Qed.

Example doctest_get_vectors_inside_circle :
  _get_vectors_inside_circle (pt 25 25) (PInt 1) =
    Ok [pt 25 24; pt 24 25; pt 25 25; pt 26 25; pt 25 26] /\
  _get_vectors_inside_circle (PTuple [PInt 42; PInt 42; PInt 2]) (PStr "c") =
    Raise TypeError.
Proof. split; reflexivity. Qed.

Example doctest_validate_input :
  _validate_input (pt 42 25) = Ok true /\
  _validate_input (PTuple [PInt 42; PInt 25; PInt 53]) = Raise TypeError /\
  _validate_input (PTuple [PStr "a"; PInt 10]) = Raise ValueError.
Proof. repeat split. Qed.

Example doctest_is_indexable :
  _is_indexable (pt 10 10) = Ok (PBool true) /\
  _is_indexable (PInt 10) = Ok (PBool false).
Proof. split; reflexivity. Qed.

Example doctest_is_int :
  _is_int (pt 10 10) = Ok false /\ _is_int (PStr "10") = Ok true.
Proof. split; reflexivity. Qed.

(** With fill, radius 1 scans the disk of radius 0 and radius 2 the disk
    of radius 5: the values [radius] has when the loop is left. *)
Example fill_radius_one :
  get_circle_vectors (pt 25 25) (PInt 1) true =
    Ok [pt 26 25; pt 25 26; pt 24 25; pt 25 24; pt 25 25].
Proof. vm_compute. reflexivity. Qed.

Example final_state_radius_two :
  perimeter_loop (pt 50 50) (initial_state (PInt 2) 2) [] =
    Ok (quadrant_points 50 50 (-2) 0 ++ quadrant_points 50 50 (-2) 1
          ++ quadrant_points 50 50 (-1) 2,
        LoopState 0 2 6 (PInt 5)).
Proof. vm_compute. reflexivity. Qed.

(** ** Validation *)

Lemma _is_int_spec (v : pyval) : _is_int v = Ok (int_convertible v).
Proof.
  unfold _is_int, int_convertible.
  destruct (py_int v) as [z | e] eqn:E; simpl; [reflexivity |].
  destruct v; simpl in E; try discriminate; try (inversion E; reflexivity).
  destruct (int_of_str s); inversion E; reflexivity.
Qed.

Lemma as_num_int_convertible (v : pyval) (n : Z) :
  as_num v = Some n -> int_convertible v = true.
Proof. destruct v; simpl; intros H; try discriminate; reflexivity. Qed.

Lemma as_num_truthy (v : pyval) (n : Z) :
  as_num v = Some n -> truthy v = negb (n =? 0).
Proof.
  destruct v; simpl; intros H; try discriminate; inversion H; subst; auto.
  destruct b; reflexivity.
Qed.

Lemma coords_items (c : pyval) (cx cy : Z) :
  coords c = Some (cx, cy) ->
  exists a b,
    py_getitem c 0 = Ok a /\ py_getitem c 1 = Ok b /\ py_len c = Ok 2 /\
    as_num a = Some cx /\ as_num b = Some cy.
Proof.
  intros H.
  destruct c as [| | | | l | l]; simpl in H; try discriminate;
    destruct l as [| a [| b [| ? ?]]]; try discriminate;
    destruct (as_num a) eqn:Ea; try discriminate;
    destruct (as_num b) eqn:Eb; try discriminate;
    inversion H; subst; exists a, b; simpl; auto.
Qed.

(** A pair of numbers passes validation exactly when its first coordinate
    is not zero. *)
Lemma validate_coords (c : pyval) (cx cy : Z) :
  coords c = Some (cx, cy) ->
  _validate_input c = if cx =? 0 then Raise TypeError else Ok true.
Proof.
  intros H. destruct (coords_items c cx cy H) as (a & b & G0 & G1 & L & Na & Nb).
  unfold _validate_input, _is_indexable.
  rewrite G0. simpl. rewrite (as_num_truthy a cx Na).
  destruct (Z.eqb_spec cx 0) as [E | E]; simpl.
  - rewrite (as_num_truthy a cx Na). subst. reflexivity.
  - rewrite L. simpl. rewrite G1. simpl.
    rewrite !_is_int_spec, (as_num_int_convertible a cx Na). simpl.
    rewrite ?_is_int_spec, (as_num_int_convertible b cy Nb). reflexivity.
Qed.

Lemma valid_center_nonzero (c : pyval) (cx cy : Z) :
  valid_center c cx cy -> cx <> 0.
Proof.
  intros [H V]. rewrite (validate_coords c cx cy H) in V.
  destruct (Z.eqb_spec cx 0); [discriminate | assumption].
Qed.

Lemma valid_center_pt (cx cy : Z) : cx <> 0 -> valid_center (pt cx cy) cx cy.
Proof.
  intros H. split; [reflexivity |].
  rewrite (validate_coords (pt cx cy) cx cy eq_refl).
  destruct (Z.eqb_spec cx 0); [contradiction | reflexivity].
Qed.

(** What [_validate_input] does on every object of the model: [TypeError]
    unless the argument has exactly two items and the first one is true,
    then [ValueError] unless both items are integer-convertible. *)
Lemma validate_input_cases (arg : pyval) :
  _validate_input arg =
  match two_items arg with
  | Some (a, b) =>
      if truthy a then
        if int_convertible a && int_convertible b then Ok true
        else Raise ValueError
      else Raise TypeError
  | None => Raise TypeError
  end.
Proof.
  assert (Hlist : forall l arg',
             py_getitem arg' 0 = match nth_error l 0 with
                                 | Some v => Ok v | None => Raise IndexError end ->
             py_getitem arg' 1 = match nth_error l 1 with
                                 | Some v => Ok v | None => Raise IndexError end ->
             py_len arg' = Ok (Z.of_nat (List.length l)) ->
             _validate_input arg' =
             match l with
             | [a; b] =>
                 if truthy a then
                   if int_convertible a && int_convertible b then Ok true
                   else Raise ValueError
                 else Raise TypeError
             | _ => Raise TypeError
             end).
  { intros l arg' G0 G1 L. unfold _validate_input, _is_indexable.
    rewrite G0, L.
    destruct l as [| a [| b [| d l]]]; cbn [nth_error bind try_except];
      try reflexivity.
    - destruct (truthy a) eqn:Ta; cbn; rewrite ?Ta; reflexivity.
    - destruct (truthy a) eqn:Ta; cbn [bind try_except List.length];
        [| rewrite Ta; reflexivity].
      cbn [Z.of_nat Pos.of_succ_nat Pos.succ Z.eqb Pos.eqb truthy].
      rewrite G1. cbn [nth_error bind]. rewrite !_is_int_spec. cbn [bind].
      destruct (int_convertible a); cbn [bind andb];
        [rewrite ?_is_int_spec; cbn [bind];
         destruct (int_convertible b) |]; reflexivity.
    - destruct (truthy a) eqn:Ta; cbn [bind try_except];
        [| rewrite Ta; reflexivity].
      replace (Z.of_nat (List.length (a :: b :: d :: l)) =? 2) with false
        by (symmetry; apply Z.eqb_neq; cbn [List.length]; lia).
      reflexivity. }
  destruct arg as [| b | z | s | l | l]; try reflexivity.
  - destruct s as [| a [| b [| d rest]]]; try reflexivity.
    + apply (Hlist [PStr (String a EmptyString); PStr (String b EmptyString)]
               (PStr (String a (String b EmptyString)))); reflexivity.
    + unfold _validate_input, _is_indexable.
      cbn [py_getitem String.get bind try_except truthy String.length
           Nat.eqb negb py_len].
      replace (Z.of_nat (S (S (S (String.length rest)))) =? 2) with false
        by (symmetry; apply Z.eqb_neq; lia).
      reflexivity.
  - rewrite (Hlist l (PTuple l)) by reflexivity.
    destruct l as [| a [| b [| d l]]]; reflexivity.
  - rewrite (Hlist l (PList l)) by reflexivity.
    destruct l as [| a [| b [| d l]]]; reflexivity.
Qed.

(** A pair of numeric strings passes validation, and the reflector then
    fails in its arithmetic. *)
Example quadrants_of_strings :
  _validate_input (PTuple [PStr "1"; PStr "2"]) = Ok true /\
  _get_circle_quadrants (PTuple [PStr "1"; PStr "2"]) (pt (-2) 0)
    = Raise TypeError.
Proof. split; reflexivity. Qed.

(** ** Arithmetic on numbers *)

Lemma py_sub_num (a b : pyval) (m n : Z) :
  as_num a = Some m -> as_num b = Some n -> py_sub a b = Ok (PInt (m - n)).
Proof. intros Ha Hb. unfold py_sub. rewrite Ha, Hb. reflexivity. Qed.

Lemma py_add_num (a b : pyval) (m n : Z) :
  as_num a = Some m -> as_num b = Some n -> py_add a b = Ok (PInt (m + n)).
Proof.
  intros Ha Hb.
  destruct a; simpl in Ha; try discriminate;
    destruct b; simpl in Hb; try discriminate;
    inversion Ha; inversion Hb; subst; reflexivity.
Qed.

(** ** Quadrant Reflector *)

Lemma quadrants_of_coords (c p : pyval) (cx cy ox oy : Z) :
  valid_center c cx cy -> valid_center p ox oy ->
  _get_circle_quadrants c p = Ok (quadrant_points cx cy ox oy).
Proof.
  intros [Hc Vc] [Hp Vp].
  destruct (coords_items c cx cy Hc) as (c0 & c1 & Gc0 & Gc1 & _ & Nc0 & Nc1).
  destruct (coords_items p ox oy Hp) as (p0 & p1 & Gp0 & Gp1 & _ & Np0 & Np1).
  unfold _get_circle_quadrants. rewrite Vc. simpl. rewrite Vp. simpl.
  rewrite Gc0, Gp0, Gc1, Gp1. simpl.
  rewrite (py_sub_num c0 p0 cx ox), (py_add_num c1 p1 cy oy),
    (py_sub_num c0 p1 cx oy), (py_sub_num c1 p0 cy ox),
    (py_add_num c0 p0 cx ox), (py_sub_num c1 p1 cy oy),
    (py_add_num c0 p1 cx oy), (py_add_num c1 p0 cy ox) by assumption.
  reflexivity.
Qed.

(** ** The stepping loop *)

Lemma perimeter_loop_eq (c : pyval) (st : loop_state) (acc : list pyval) :
  perimeter_loop c st acc =
  if st_x st <? 0 then
    q <- _get_circle_quadrants c (PTuple [PInt (st_x st); PInt (st_y st)]) ;;
    perimeter_loop c (loop_body st) (acc ++ q)
  else Ok (acc, st).
Proof.
  simp perimeter_loop.
  destruct (Z_lt_dec (st_x st) 0) as [H | H]; simpl.
  - rewrite (proj2 (Z.ltb_lt _ _) H).
    destruct (_get_circle_quadrants c _); reflexivity.
  - rewrite (proj2 (Z.ltb_nlt _ _) H). reflexivity.
Qed.

Lemma loop_state_induction (P : loop_state -> Prop) :
  (forall st, (st_x st < 0 -> P (loop_body st)) -> P st) ->
  forall st, P st.
Proof.
  intros step st.
  induction st as [st IH]
    using (well_founded_induction (well_founded_ltof _ loop_measure)).
  apply step. intros Hx. apply IH. unfold ltof. clear IH step.
  loop_measure_decreases.
Qed.

(** The loop terminates from every state. *)
Lemma loop_run_total (st : loop_state) :
  exists visited final, loop_run st visited final.
Proof.
  induction st as [st IH] using loop_state_induction.
  destruct (Z_lt_le_dec (st_x st) 0) as [Hx | Hx].
  - destruct (IH Hx) as (visited & final & Hrun).
    exists (st :: visited), final. now apply run_iter.
  - exists [], st. now apply run_exit.
Qed.

Lemma loop_run_deterministic (st : loop_state) (v1 v2 : list loop_state)
    (f1 f2 : loop_state) :
  loop_run st v1 f1 -> loop_run st v2 f2 -> v1 = v2 /\ f1 = f2.
Proof.
  intros H1. revert v2 f2.
  induction H1 as [st Hx | st visited final Hx _ IH]; intros v2 f2 H2;
    inversion H2; subst; try lia.
  - auto.
  - destruct (IH _ _ H0) as [-> ->]. auto.
Qed.

Lemma loop_run_final (st : loop_state) (visited : list loop_state)
    (final : loop_state) :
  loop_run st visited final -> 0 <= st_x final.
Proof. induction 1; assumption. Qed.

Lemma loop_run_visited (st : loop_state) (visited : list loop_state)
    (final : loop_state) :
  loop_run st visited final -> Forall (fun s => st_x s < 0) visited.
Proof. induction 1; constructor; assumption. Qed.

(** On a valid center the function [perimeter_loop] computes what the
    big-step reading says. *)
Lemma perimeter_loop_run (c : pyval) (cx cy : Z) (st : loop_state)
    (visited : list loop_state) (final : loop_state) :
  valid_center c cx cy -> loop_run st visited final ->
  forall acc,
    perimeter_loop c st acc = Ok (acc ++ emitted cx cy visited, final).
Proof.
  intros Hc Hrun.
  induction Hrun as [st Hx | st visited final Hx _ IH]; intros acc;
    rewrite perimeter_loop_eq.
  - rewrite (proj2 (Z.ltb_ge _ _) Hx). simpl. now rewrite app_nil_r.
  - rewrite (proj2 (Z.ltb_lt _ _) Hx).
    rewrite (quadrants_of_coords c _ cx cy (st_x st) (st_y st) Hc)
      by (apply valid_center_pt; lia).
    cbn [bind]. rewrite IH. unfold emitted. cbn [flat_map].
    now rewrite <- app_assoc.
Qed.

Lemma emitted_length (cx cy : Z) (visited : list loop_state) :
  List.length (emitted cx cy visited) = (4 * List.length visited)%nat.
Proof.
  unfold emitted. induction visited as [| s visited IH]; simpl; [reflexivity |].
  rewrite IH. lia.
Qed.

Lemma loop_body_invariant (r : Z) (st : loop_state) :
  error_invariant r st -> error_invariant r (loop_body st).
Proof.
  destruct st as [x0 y0 e0 r0]. unfold error_invariant, loop_body. simpl.
  intros ->. split_comparisons; lia.
Qed.

Lemma initial_state_invariant (radius : pyval) (r : Z) :
  error_invariant r (initial_state radius r).
Proof. cbv [error_invariant initial_state st_error st_x st_y]. ring. Qed.

Lemma loop_body_radius (st : loop_state) :
  st_radius (loop_body st) = PInt (st_error st).
Proof. unfold loop_body. split_comparisons; reflexivity. Qed.

(** With a radius of at least 1 the loop ends with [radius] holding the
    [error] of its last iteration, [(y + 1) ^ 2 - r ^ 2], which is never the
    caller's [r]: [r * (r + 1)] is not a square. *)
Lemma final_radius_differs (r : Z) (st : loop_state)
    (visited : list loop_state) (final : loop_state) :
  1 <= r -> error_invariant r st -> loop_run st visited final ->
  visited <> [] ->
  exists e, st_radius final = PInt e /\ e <> r.
Proof.
  intros Hr Hinv Hrun.
  induction Hrun as [st Hx | st visited final Hx Hrun IH]; intros Hne;
    [contradiction |].
  destruct visited as [| s visited].
  - inversion Hrun; subst. clear IH Hrun Hne.
    exists (st_error st). split; [apply loop_body_radius |].
    assert (Hx1 : st_x st = -1).
    { destruct st as [x0 y0 e0 r0]. unfold loop_body in *. simpl in *.
      revert H. split_comparisons; lia. }
    unfold error_invariant in Hinv. rewrite Hx1 in Hinv.
    intros Heq. rewrite Heq in Hinv.
    assert (Hcases : st_y st + 1 <= - (r + 1) \/
                     - r <= st_y st + 1 <= r \/ r + 1 <= st_y st + 1) by lia.
    destruct Hcases as [Hc | [Hc | Hc]]; nia.
  - apply IH; [now apply loop_body_invariant | discriminate].
Qed.

(** The loop runs its body at most [2 * r] times. *)
Lemma loop_run_length (r : Z) (st : loop_state) (visited : list loop_state)
    (final : loop_state) :
  loop_run st visited final ->
  error_invariant r st -> st_x st <= 0 -> 0 <= st_y st <= r ->
  Z.of_nat (List.length visited) <= - st_x st + (r - st_y st).
Proof.
  intros Hrun.
  induction Hrun as [st Hx | st visited final Hx Hrun IH]; intros Hinv Hx0 Hy.
  - simpl. lia.
  - assert (Hstep :
      st_x (loop_body st) <= 0 /\ 0 <= st_y (loop_body st) <= r /\
      - st_x (loop_body st) + (r - st_y (loop_body st))
        <= - st_x st + (r - st_y st) - 1).
    { clear IH Hrun. destruct st as [x0 y0 e0 r0].
      unfold error_invariant, loop_body in *. simpl in *. subst e0.
      split_comparisons; nia. }
    destruct Hstep as (H1 & H2 & H3).
    specialize (IH (loop_body_invariant r st Hinv) H1 H2).
    cbn [List.length]. lia.
Qed.

Lemma loop_iterations_bound (radius : pyval) (r : Z)
    (visited : list loop_state) (final : loop_state) :
  loop_run (initial_state radius r) visited final ->
  Z.of_nat (List.length visited) <= 2 * Z.max 0 r.
Proof.
  intros Hrun. destruct (Z_lt_le_dec 0 r) as [Hr | Hr].
  - pose proof (loop_run_length r _ _ _ Hrun
                  (initial_state_invariant radius r)) as H.
    cbn [initial_state st_x st_y] in H. lia.
  - inversion Hrun; subst; cbn [initial_state st_x List.length] in *; lia.
Qed.

(** ** Interior Scanner *)

Lemma for_each_append {A B} (xs : list A) (body : A -> list B -> result (list B))
    (f : A -> list B) :
  (forall a acc, body a acc = Ok (acc ++ f a)) ->
  forall acc, for_each xs body acc = Ok (acc ++ flat_map f xs).
Proof.
  intros Hbody. induction xs as [| a xs IH]; intros acc; simpl.
  - now rewrite app_nil_r.
  - rewrite Hbody. simpl. rewrite IH. now rewrite <- app_assoc.
Qed.

Lemma flat_map_filter {A B} (p : A -> bool) (g : A -> B) (l : list A) :
  flat_map (fun a => if p a then [g a] else []) l = map g (filter p l).
Proof.
  induction l as [| a l IH]; simpl; [reflexivity |].
  destruct (p a); simpl; now rewrite IH.
Qed.

Lemma in_py_range (lo hi z : Z) : In z (py_range lo hi) <-> lo <= z < hi.
Proof.
  unfold py_range. rewrite in_map_iff. split.
  - intros (i & <- & Hi). apply in_seq in Hi. lia.
  - intros H. exists (Z.to_nat (z - lo)). split; [lia |].
    apply in_seq. lia.
Qed.

Lemma py_range_sorted (lo hi : Z) : StronglySorted Z.lt (py_range lo hi).
Proof.
  unfold py_range. generalize (Z.to_nat (hi - lo)) as n, 0%nat as k.
  induction n as [| n IH]; intros k; simpl; constructor.
  - apply IH.
  - apply Forall_forall. intros z Hz. apply in_map_iff in Hz.
    destruct Hz as (i & <- & Hi). apply in_seq in Hi. lia.
Qed.

Lemma py_range_empty (lo hi : Z) : hi <= lo -> py_range lo hi = [].
Proof.
  intros H. unfold py_range. replace (Z.to_nat (hi - lo)) with 0%nat by lia.
  reflexivity.
Qed.

Section SortedLists.
Context {A B : Type} (RA : A -> A -> Prop) (RB : B -> B -> Prop).

Lemma sorted_app (l m : list B) :
  StronglySorted RB l -> StronglySorted RB m ->
  (forall a b, In a l -> In b m -> RB a b) ->
  StronglySorted RB (l ++ m).
Proof.
  intros Hl Hm Hlm. induction Hl as [| a l Hl IH Ha]; simpl; [assumption |].
  constructor.
  - apply IH. intros; apply Hlm; simpl; auto.
  - apply Forall_app. split; [assumption |].
    apply Forall_forall. intros b Hb. apply Hlm; simpl; auto.
Qed.

Lemma sorted_filter (p : B -> bool) (l : list B) :
  StronglySorted RB l -> StronglySorted RB (filter p l).
Proof.
  induction 1 as [| a l Hl IH Ha]; simpl; [constructor |].
  destruct (p a); [| assumption]. constructor; [assumption |].
  rewrite Forall_forall in *. intros b Hb. apply filter_In in Hb.
  apply Ha, Hb.
Qed.

Lemma sorted_map (f : A -> B) (l : list A) :
  (forall a b, RA a b -> RB (f a) (f b)) ->
  StronglySorted RA l -> StronglySorted RB (map f l).
Proof.
  intros Hf. induction 1 as [| a l Hl IH Ha]; simpl; constructor;
    [assumption |].
  rewrite Forall_forall in *. intros b Hb. apply in_map_iff in Hb.
  destruct Hb as (a' & <- & Ha'). auto.
Qed.

Lemma sorted_flat_map (f : A -> list B) (l : list A) :
  (forall a, StronglySorted RB (f a)) ->
  (forall a a' b b', RA a a' -> In b (f a) -> In b' (f a') -> RB b b') ->
  StronglySorted RA l -> StronglySorted RB (flat_map f l).
Proof.
  intros Hrow Hcross. induction 1 as [| a l Hl IH Ha]; simpl;
    [constructor |].
  apply sorted_app; [apply Hrow | assumption |].
  intros b b' Hb Hb'. apply in_flat_map in Hb'.
  destruct Hb' as (a' & Ha' & Hb').
  rewrite Forall_forall in Ha. eauto.
Qed.
End SortedLists.

Lemma in_disk_offsets (r dx dy : Z) :
  In (dx, dy) (disk_offsets r) <->
  - r <= dx <= r /\ - r <= dy <= r /\ dx * dx + dy * dy <= r * r.
Proof.
  unfold disk_offsets, row_offsets. rewrite in_flat_map. split.
  - intros (y0 & Hy & Hin). apply in_map_iff in Hin.
    destruct Hin as (x0 & Heq & Hx). inversion Heq; subst.
    apply filter_In in Hx. destruct Hx as [Hx Hle].
    apply in_py_range in Hx, Hy. apply Z.leb_le in Hle. lia.
  - intros (Hx & Hy & Hle). exists dy. split; [apply in_py_range; lia |].
    apply in_map_iff. exists dx. split; [reflexivity |].
    apply filter_In. split; [apply in_py_range; lia |].
    apply Z.leb_le. lia.
Qed.

Lemma disk_offsets_sorted (r : Z) : StronglySorted row_major_lt (disk_offsets r).
Proof.
  unfold disk_offsets.
  apply sorted_flat_map with (RA := Z.lt); [| | apply py_range_sorted].
  - intros dy. unfold row_offsets.
    apply sorted_map with (RA := Z.lt).
    + intros a b Hab. right. simpl. auto.
    + apply sorted_filter, py_range_sorted.
  - intros dy dy' b b' Hlt Hb Hb'. unfold row_offsets in *.
    apply in_map_iff in Hb, Hb'.
    destruct Hb as (? & <- & _), Hb' as (? & <- & _). left. assumption.
Qed.

Lemma map_flat_map {A B C} (g : B -> C) (f : A -> list B) (l : list A) :
  flat_map (fun a => map g (f a)) l = map g (flat_map f l).
Proof.
  induction l as [| a l IH]; simpl; [reflexivity |].
  now rewrite map_app, IH.
Qed.

(** On a valid center and an integer radius the scanner returns the disk
    offsets moved to the center. *)
Lemma scanner_of_coords (c : pyval) (cx cy r : Z) :
  valid_center c cx cy ->
  _get_vectors_inside_circle c (PInt r) = Ok (map (shift cx cy) (disk_offsets r)).
Proof.
  intros [Hc Vc].
  destruct (coords_items c cx cy Hc) as (c0 & c1 & G0 & G1 & _ & N0 & N1).
  unfold _get_vectors_inside_circle. rewrite Vc. cbn [bind].
  rewrite _is_int_spec. cbn [bind int_convertible py_int py_num as_num].
  rewrite for_each_append
    with (f := fun dy => map (shift cx cy) (row_offsets r dy)).
  - cbn [app]. unfold disk_offsets. now rewrite map_flat_map.
  - intros dy acc.
    rewrite for_each_append
      with (f := fun dx => if dx ^ 2 + dy ^ 2 <=? r ^ 2
                           then [pt (cx + dx) (cy + dy)] else []).
    + unfold row_offsets. rewrite map_map.
      now rewrite (flat_map_filter (fun dx => dx ^ 2 + dy ^ 2 <=? r ^ 2)
                     (fun dx => pt (cx + dx) (cy + dy))).
    + intros dx acc'. destruct (dx ^ 2 + dy ^ 2 <=? r ^ 2).
      * rewrite G0, G1. cbn [bind].
        rewrite (py_add_num c0 (PInt dx) cx dx N0 eq_refl). cbn [bind].
        rewrite (py_add_num c1 (PInt dy) cy dy N1 eq_refl). reflexivity.
      * now rewrite app_nil_r.
Qed.

(** A negative radius makes the scan range empty, whatever validated
    center is given. *)
Lemma scanner_negative_radius (c : pyval) (r : Z) :
  _validate_input c = Ok true -> r < 0 ->
  _get_vectors_inside_circle c (PInt r) = Ok [].
Proof.
  intros Vc Hr. unfold _get_vectors_inside_circle. rewrite Vc. cbn [bind].
  rewrite _is_int_spec. cbn [bind int_convertible py_int py_num as_num].
  rewrite py_range_empty by lia. reflexivity.
Qed.

Lemma disk_offsets_zero : disk_offsets 0 = [(0, 0)].
Proof. reflexivity. Qed.

(** ** The entry point *)

Lemma get_circle_vectors_int (c : pyval) (r : Z) (fill : bool) :
  _validate_input c = Ok true ->
  get_circle_vectors c (PInt r) fill =
  out <- perimeter_loop c (initial_state (PInt r) r) [] ;;
  if fill then
    inside <- _get_vectors_inside_circle c (st_radius (snd out)) ;;
    Ok (fst out ++ inside)
  else Ok (fst out).
Proof.
  intros Vc. unfold get_circle_vectors. rewrite Vc. cbn [bind].
  rewrite _is_int_spec. cbn [bind int_convertible py_int py_num as_num].
  destruct (perimeter_loop c (initial_state (PInt r) r) []) as [[cv st] | e];
    reflexivity.
Qed.

Lemma get_circle_vectors_run (c : pyval) (cx cy r : Z) (fill : bool)
    (visited : list loop_state) (final : loop_state) :
  valid_center c cx cy ->
  loop_run (initial_state (PInt r) r) visited final ->
  get_circle_vectors c (PInt r) fill =
  if fill then
    inside <- _get_vectors_inside_circle c (st_radius final) ;;
    Ok (emitted cx cy visited ++ inside)
  else Ok (emitted cx cy visited).
Proof.
  intros Hc Hrun. rewrite get_circle_vectors_int by apply Hc.
  rewrite (perimeter_loop_run c cx cy _ visited final Hc Hrun). reflexivity.
Qed.

Lemma get_circle_vectors_not_entered (c : pyval) (r : Z) (fill : bool) :
  _validate_input c = Ok true -> r <= 0 ->
  get_circle_vectors c (PInt r) fill =
  if fill then _get_vectors_inside_circle c (PInt r) else Ok [].
Proof.
  intros Vc Hr. rewrite get_circle_vectors_int by assumption.
  rewrite perimeter_loop_eq.
  replace (st_x (initial_state (PInt r) r) <? 0) with false
    by (symmetry; apply Z.ltb_ge; simpl; lia).
  cbn [bind fst snd initial_state st_radius app].
  destruct fill; [| reflexivity].
  destruct (_get_vectors_inside_circle c (PInt r)); reflexivity.
Qed.

Lemma loop_run_radius_int (r : Z) (visited : list loop_state)
    (final : loop_state) :
  loop_run (initial_state (PInt r) r) visited final ->
  exists e, st_radius final = PInt e.
Proof.
  intros Hrun.
  assert (H : forall st, (exists e, st_radius st = PInt e) ->
                         loop_run st visited final ->
                         exists e, st_radius final = PInt e).
  { clear Hrun. intros st Hst Hrun.
    induction Hrun as [st Hx | st visited final Hx _ IH]; [assumption |].
    apply IH. exists (st_error st). apply loop_body_radius. }
  apply (H (initial_state (PInt r) r)); [| exact Hrun].
  exists r. reflexivity.
Qed.

(** * The claims of the specification *)

(** C1, as the code has it: for every center that passes validation and
    every radius that is not integer-convertible, [get_circle_vectors]
    raises nothing and returns the empty sequence, whatever [fill] is. *)
Theorem get_circle_vectors_bad_radius_empty (c radius : pyval) (fill : bool) :
  _validate_input c = Ok true -> _is_int radius = Ok false ->
  get_circle_vectors c radius fill = Ok [].
Proof.
  intros Vc Hr. unfold get_circle_vectors. rewrite Vc. cbn [bind].
  rewrite Hr. reflexivity.
Qed.

Lemma get_circle_vectors_bad_radius_empty_witness :
  _validate_input (pt 42 42) = Ok true /\
  _is_int (PStr "c") = Ok false /\
  get_circle_vectors (pt 42 42) (PStr "c") true = Ok [].
Proof.
  split; [reflexivity |]. split; [reflexivity |].
  apply (get_circle_vectors_bad_radius_empty (pt 42 42) (PStr "c") true);
    reflexivity.
Defined.

(** C1, as stated, fails: the center [(42, 42)] passes validation, the
    radius ["c"] is not integer-convertible, and the call returns the empty
    sequence instead of raising [ValueError]. *)
Lemma get_circle_vectors_bad_radius_no_error :
  _validate_input (pt 42 42) = Ok true /\
  _is_int (PStr "c") = Ok false /\
  get_circle_vectors (pt 42 42) (PStr "c") false = Ok [] /\
  ~ (exists e, get_circle_vectors (pt 42 42) (PStr "c") false = Raise e).
Proof.
  repeat split; try reflexivity.
  intros [e He]. vm_compute in He. discriminate He.
Qed.

(** C2: with [fill] true, the result is the perimeter followed by the
    Interior Scanner's output for the value the variable [radius] has when
    the loop is left.  When the caller's radius is at least 1 that value is
    the last [error] assigned to it and differs from the caller's radius;
    otherwise the body never ran and the variable is unchanged. *)
Theorem fill_scans_final_radius (c : pyval) (cx cy r : Z) :
  valid_center c cx cy ->
  exists visited final perimeter inside,
    loop_run (initial_state (PInt r) r) visited final /\
    get_circle_vectors c (PInt r) false = Ok perimeter /\
    _get_vectors_inside_circle c (st_radius final) = Ok inside /\
    get_circle_vectors c (PInt r) true = Ok (perimeter ++ inside) /\
    (1 <= r -> exists e, st_radius final = PInt e /\ e <> r) /\
    (r <= 0 -> st_radius final = PInt r).
Proof.
  intros Hc.
  destruct (loop_run_total (initial_state (PInt r) r)) as (visited & final & Hrun).
  destruct (loop_run_radius_int r visited final Hrun) as [e He].
  exists visited, final, (emitted cx cy visited),
    (map (shift cx cy) (disk_offsets e)).
  split; [assumption |].
  split; [apply (get_circle_vectors_run c cx cy r false _ _ Hc Hrun) |].
  split; [rewrite He; now apply scanner_of_coords |].
  split.
  - rewrite (get_circle_vectors_run c cx cy r true _ _ Hc Hrun), He.
    now rewrite (scanner_of_coords c cx cy e Hc).
  - split.
    + intros Hr.
      apply (final_radius_differs r _ visited final Hr
               (initial_state_invariant (PInt r) r) Hrun).
      intros ->. inversion Hrun; subst. simpl in *. lia.
    + intros Hr. inversion Hrun; subst; [reflexivity |]. simpl in *. lia.
Qed.

Lemma fill_scans_final_radius_witness :
  valid_center (pt 50 50) 50 50 /\
  exists visited final perimeter inside,
    loop_run (initial_state (PInt 2) 2) visited final /\
    get_circle_vectors (pt 50 50) (PInt 2) false = Ok perimeter /\
    _get_vectors_inside_circle (pt 50 50) (st_radius final) = Ok inside /\
    get_circle_vectors (pt 50 50) (PInt 2) true = Ok (perimeter ++ inside) /\
    (1 <= 2 -> exists e, st_radius final = PInt e /\ e <> 2) /\
    (2 <= 0 -> st_radius final = PInt 2).
Proof.
  assert (H : valid_center (pt 50 50) 50 50) by (split; reflexivity).
  split; [exact H | apply (fill_scans_final_radius (pt 50 50) 50 50 2 H)].
Defined.

(** C3, at the input where the code departs from it: the pair [(0, 5)] has
    two integer elements, yet [_is_indexable] returns its first element [0],
    which is false, and [_validate_input] raises [TypeError]. *)
Theorem validate_input_zero_first_element :
  _is_indexable (pt 0 5) = Ok (PInt 0) /\
  _validate_input (pt 0 5) = Raise TypeError.
Proof. split; reflexivity. Qed.

(** C4: the documented outputs of [get_circle_vectors], and the empty
    result for radius 0 without fill. *)
Theorem get_circle_vectors_fixtures (c : pyval) :
  _validate_input c = Ok true ->
  get_circle_vectors (pt 50 50) (PInt 2) false =
    Ok [pt 52 50; pt 50 52; pt 48 50; pt 50 48;
        pt 52 51; pt 49 52; pt 48 49; pt 51 48;
        pt 51 52; pt 48 51; pt 49 48; pt 52 49] /\
  get_circle_vectors (pt 25 25) (PInt 1) false =
    Ok [pt 26 25; pt 25 26; pt 24 25; pt 25 24] /\
  get_circle_vectors c (PInt 0) false = Ok [].
Proof.
  intros Vc. split; [vm_compute; reflexivity |].
  split; [vm_compute; reflexivity |].
  now rewrite get_circle_vectors_not_entered by (assumption || lia).
Qed.

Lemma get_circle_vectors_fixtures_witness :
  _validate_input (pt 42 42) = Ok true /\
  get_circle_vectors (pt 42 42) (PInt 0) false = Ok [].
Proof.
  split; [reflexivity |].
  apply (get_circle_vectors_fixtures (pt 42 42)). reflexivity.
Defined.

(** C5: for every valid center and integer radius the stepping loop is left
    after finitely many iterations, with [x >= 0], and the entry point
    returns a sequence with and without fill. *)
Theorem perimeter_loop_terminates (c : pyval) (cx cy r : Z) :
  valid_center c cx cy ->
  exists visited final,
    loop_run (initial_state (PInt r) r) visited final /\
    Forall (fun s => st_x s < 0) visited /\
    0 <= st_x final /\
    perimeter_loop c (initial_state (PInt r) r) [] =
      Ok (emitted cx cy visited, final) /\
    forall fill, exists points, get_circle_vectors c (PInt r) fill = Ok points.
Proof.
  intros Hc.
  destruct (loop_run_total (initial_state (PInt r) r)) as (visited & final & Hrun).
  exists visited, final.
  split; [assumption |].
  split; [apply (loop_run_visited _ _ _ Hrun) |].
  split; [apply (loop_run_final _ _ _ Hrun) |].
  split; [apply (perimeter_loop_run c cx cy _ _ _ Hc Hrun []) |].
  intros fill. rewrite (get_circle_vectors_run c cx cy r fill _ _ Hc Hrun).
  destruct fill; [| eauto].
  destruct (loop_run_radius_int r visited final Hrun) as [e ->].
  rewrite (scanner_of_coords c cx cy e Hc). cbn [bind]. eauto.
Qed.

Lemma perimeter_loop_terminates_witness :
  valid_center (pt 50 50) 50 50 /\
  exists visited final,
    loop_run (initial_state (PInt 2) 2) visited final /\
    Forall (fun s => st_x s < 0) visited /\
    0 <= st_x final /\
    perimeter_loop (pt 50 50) (initial_state (PInt 2) 2) [] =
      Ok (emitted 50 50 visited, final) /\
    forall fill, exists points,
      get_circle_vectors (pt 50 50) (PInt 2) fill = Ok points.
Proof.
  assert (H : valid_center (pt 50 50) 50 50) by (split; reflexivity).
  split; [exact H | apply (perimeter_loop_terminates (pt 50 50) 50 50 2 H)].
Defined.

(** C6: for a center [(cx, cy)] and an offset [(ox, oy)] that both pass
    validation, the Quadrant Reflector returns the four points
    [(cx - ox, cy + oy)], [(cx - oy, cy - ox)], [(cx + ox, cy - oy)],
    [(cx + oy, cy + ox)], in this order. *)
Theorem quadrant_reflector_points (c p : pyval) (cx cy ox oy : Z) :
  valid_center c cx cy -> valid_center p ox oy ->
  _get_circle_quadrants c p =
    Ok [pt (cx - ox) (cy + oy); pt (cx - oy) (cy - ox);
        pt (cx + ox) (cy - oy); pt (cx + oy) (cy + ox)].
Proof. intros Hc Hp. apply (quadrants_of_coords c p cx cy ox oy Hc Hp). Qed.

Lemma quadrant_reflector_points_witness :
  valid_center (pt 50 50) 50 50 /\ valid_center (pt (-2) 0) (-2) 0 /\
  _get_circle_quadrants (pt 50 50) (pt (-2) 0) =
    Ok [pt 52 50; pt 50 52; pt 48 50; pt 50 48].
Proof.
  assert (Hc : valid_center (pt 50 50) 50 50) by (split; reflexivity).
  assert (Hp : valid_center (pt (-2) 0) (-2) 0) by (split; reflexivity).
  split; [exact Hc |]. split; [exact Hp |].
  apply (quadrant_reflector_points (pt 50 50) (pt (-2) 0) 50 50 (-2) 0 Hc Hp).
Defined.

(** C7: for a valid center [(cx, cy)] and an integer radius [r >= 0] the
    Interior Scanner returns the points [(cx + dx, cy + dy)] whose offsets
    are exactly those with [dx], [dy] in [[-r, r]] and
    [dx^2 + dy^2 <= r^2], each once, in row-major order ([dy] ascending,
    then [dx] ascending); for [r = 0] this is the center alone. *)
Theorem interior_scanner_disk (c : pyval) (cx cy r : Z) :
  valid_center c cx cy -> 0 <= r ->
  exists offsets,
    _get_vectors_inside_circle c (PInt r) = Ok (map (shift cx cy) offsets) /\
    (forall dx dy,
        In (dx, dy) offsets <->
        - r <= dx <= r /\ - r <= dy <= r /\ dx * dx + dy * dy <= r * r) /\
    StronglySorted row_major_lt offsets /\
    (r = 0 -> _get_vectors_inside_circle c (PInt r) = Ok [pt cx cy]).
Proof.
  intros Hc Hr. exists (disk_offsets r).
  split; [apply (scanner_of_coords c cx cy r Hc) |].
  split; [intros dx dy; apply in_disk_offsets |].
  split; [apply disk_offsets_sorted |].
  intros ->. rewrite (scanner_of_coords c cx cy 0 Hc), disk_offsets_zero.
  unfold shift. simpl. now rewrite !Z.add_0_r.
Qed.

Lemma interior_scanner_disk_witness :
  valid_center (pt 42 42) 42 42 /\ 0 <= 0 /\
  _get_vectors_inside_circle (pt 42 42) (PInt 0) = Ok [pt 42 42].
Proof.
  assert (Hc : valid_center (pt 42 42) 42 42) by (split; reflexivity).
  split; [exact Hc |]. split; [lia |].
  destruct (interior_scanner_disk (pt 42 42) 42 42 0 Hc (Z.le_refl 0))
    as (offsets & _ & _ & _ & H0).
  exact (H0 eq_refl).
Defined.

(** C8: for every center that passes validation and every radius that is
    not integer-convertible, the Interior Scanner returns the empty
    sequence and raises nothing. *)
Theorem interior_scanner_bad_radius_empty (c radius : pyval) :
  _validate_input c = Ok true -> _is_int radius = Ok false ->
  _get_vectors_inside_circle c radius = Ok [].
Proof.
  intros Vc Hr. unfold _get_vectors_inside_circle. rewrite Vc. cbn [bind].
  rewrite Hr. reflexivity.
Qed.

Lemma interior_scanner_bad_radius_empty_witness :
  _validate_input (pt 42 42) = Ok true /\
  _is_int (PStr "c") = Ok false /\
  _get_vectors_inside_circle (pt 42 42) (PStr "c") = Ok [].
Proof.
  split; [reflexivity |]. split; [reflexivity |].
  apply (interior_scanner_bad_radius_empty (pt 42 42) (PStr "c")); reflexivity.
Defined.

(** C9: for a valid center and an integer radius, without fill, the
    returned sequence has four points for each iteration of the loop, so
    its length is a multiple of 4. *)
Theorem perimeter_length_multiple_of_four (c : pyval) (cx cy r : Z) :
  valid_center c cx cy ->
  exists points iterations,
    get_circle_vectors c (PInt r) false = Ok points /\
    List.length points = (4 * iterations)%nat.
Proof.
  intros Hc.
  destruct (loop_run_total (initial_state (PInt r) r)) as (visited & final & Hrun).
  exists (emitted cx cy visited), (List.length visited).
  split; [apply (get_circle_vectors_run c cx cy r false _ _ Hc Hrun) |].
  apply emitted_length.
Qed.

Lemma perimeter_length_multiple_of_four_witness :
  valid_center (pt 50 50) 50 50 /\
  exists points iterations,
    get_circle_vectors (pt 50 50) (PInt 2) false = Ok points /\
    List.length points = (4 * iterations)%nat.
Proof.
  assert (H : valid_center (pt 50 50) 50 50) by (split; reflexivity).
  split; [exact H |].
  apply (perimeter_length_multiple_of_four (pt 50 50) 50 50 2 H).
Defined.

(** C10: for every center that passes validation and every negative
    integer radius, [get_circle_vectors] returns the empty sequence with
    and without fill. *)
Theorem negative_radius_empty (c : pyval) (r : Z) (fill : bool) :
  _validate_input c = Ok true -> r < 0 ->
  get_circle_vectors c (PInt r) fill = Ok [].
Proof.
  intros Vc Hr. rewrite get_circle_vectors_not_entered by (assumption || lia).
  destruct fill; [now apply scanner_negative_radius | reflexivity].
Qed.

Lemma negative_radius_empty_witness :
  _validate_input (pt 50 50) = Ok true /\ -3 < 0 /\
  get_circle_vectors (pt 50 50) (PInt (-3)) true = Ok [].
Proof.
  split; [reflexivity |]. split; [lia |].
  apply (negative_radius_empty (pt 50 50) (-3) true); [reflexivity | lia].
Defined.

(** * Further properties of the module *)

(** ** Validation and error behaviour *)

Lemma two_items_getitem (arg a b : pyval) :
  two_items arg = Some (a, b) ->
  py_getitem arg 0 = Ok a /\ py_getitem arg 1 = Ok b /\ py_len arg = Ok 2.
Proof.
  intros H. destruct arg as [| | | s | l | l]; simpl in H; try discriminate.
  - destruct s as [| c0 [| c1 [| c2 s]]]; try discriminate.
    inversion H; subst. repeat split.
  - destruct l as [| x0 [| x1 [| x2 l]]]; try discriminate.
    inversion H; subst. repeat split.
  - destruct l as [| x0 [| x1 [| x2 l]]]; try discriminate.
    inversion H; subst. repeat split.
Qed.

Lemma validated_items (c : pyval) :
  _validate_input c = Ok true ->
  exists a b,
    two_items c = Some (a, b) /\ truthy a = true /\
    int_convertible a = true /\ int_convertible b = true.
Proof.
  rewrite validate_input_cases.
  destruct (two_items c) as [[a b] |]; [| discriminate].
  destruct (truthy a) eqn:Ta; [| discriminate].
  destruct (int_convertible a) eqn:Ia, (int_convertible b) eqn:Ib; cbn [andb];
    try discriminate.
  intros _. exists a, b. auto.
Qed.




(** X3: a failure of [_validate_input] on the center leaves each of the
    three functions as the same exception, whatever the other arguments
    are: the center is checked before the radius or the offset is looked
    at.  A failure on the offset of [_get_circle_quadrants] propagates in
    the same way once the center has passed. *)
Theorem invalid_center_propagates (c : pyval) (e : exn) :
  _validate_input c = Raise e ->
  (forall radius fill, get_circle_vectors c radius fill = Raise e) /\
  (forall radius, _get_vectors_inside_circle c radius = Raise e) /\
  (forall p, _get_circle_quadrants c p = Raise e) /\
  (forall c', _validate_input c' = Ok true ->
              _get_circle_quadrants c' c = Raise e).
Proof.
  intros H. repeat split; intros;
    unfold get_circle_vectors, _get_vectors_inside_circle, _get_circle_quadrants;
    repeat match goal with V : _validate_input _ = _ |- _ => rewrite V; clear V end;
    cbn [bind]; rewrite ?H; reflexivity.
Qed.

Lemma invalid_center_propagates_witness :
  _validate_input (PTuple [PInt 42; PInt 42; PInt 2]) = Raise TypeError /\
  _get_vectors_inside_circle (PTuple [PInt 42; PInt 42; PInt 2]) (PStr "c")
    = Raise TypeError.
Proof.
  split; [reflexivity |].
  apply (invalid_center_propagates
           (PTuple [PInt 42; PInt 42; PInt 2]) TypeError eq_refl).
Defined.

(** X4: a center whose first coordinate is the integer 0 is rejected: for
    every second coordinate, radius, offset and fill flag the three
    functions raise [TypeError]. *)
Theorem zero_first_coordinate_rejected (c : pyval) (cy : Z) :
  coords c = Some (0, cy) ->
  (forall radius fill, get_circle_vectors c radius fill = Raise TypeError) /\
  (forall radius, _get_vectors_inside_circle c radius = Raise TypeError) /\
  (forall p, _get_circle_quadrants c p = Raise TypeError) /\
  (forall c', _get_circle_quadrants c' c = Raise TypeError \/
              _get_circle_quadrants c' c = Raise ValueError).
Proof.
  intros H. pose proof (validate_coords c 0 cy H) as V. cbn in V.
  repeat split; intros;
    try (unfold get_circle_vectors, _get_vectors_inside_circle,
           _get_circle_quadrants; rewrite V; reflexivity).
  unfold _get_circle_quadrants. rewrite (validate_input_cases c').
  destruct (two_items c') as [[a b] |]; [| auto].
  destruct (truthy a); [| auto].
  destruct (int_convertible a && int_convertible b); cbn [bind];
    try rewrite V; auto.
Qed.

Lemma zero_first_coordinate_rejected_witness :
  coords (pt 0 25) = Some (0, 25) /\
  get_circle_vectors (pt 0 25) (PInt 3) false = Raise TypeError.
Proof.
  split; [reflexivity |].
  apply (zero_first_coordinate_rejected (pt 0 25) 25 eq_refl).
Defined.

(** X5: a radius given as a numeric string passes the [_is_int] guard and
    then fails in the arithmetic: with a center that passes validation,
    [get_circle_vectors] and [_get_vectors_inside_circle] raise
    [TypeError]. *)
Theorem numeric_string_radius_raises (c : pyval) (s : string) (z : Z)
    (fill : bool) :
  _validate_input c = Ok true -> int_of_str s = Some z ->
  _is_int (PStr s) = Ok true /\
  get_circle_vectors c (PStr s) fill = Raise TypeError /\
  _get_vectors_inside_circle c (PStr s) = Raise TypeError.
Proof.
  intros Vc Hs.
  assert (Hi : _is_int (PStr s) = Ok true).
  { rewrite _is_int_spec. unfold int_convertible, py_int. now rewrite Hs. }
  split; [exact Hi |].
  unfold get_circle_vectors, _get_vectors_inside_circle.
  rewrite Vc. cbn [bind]. rewrite Hi. split; reflexivity.
Qed.

Lemma numeric_string_radius_raises_witness :
  _validate_input (pt 42 42) = Ok true /\
  int_of_str "10" = Some 10 /\
  get_circle_vectors (pt 42 42) (PStr "10") false = Raise TypeError.
Proof.
  split; [reflexivity |]. split; [reflexivity |].
  apply (numeric_string_radius_raises (pt 42 42) "10" 10 false);
    reflexivity.
Defined.

Lemma non_numeric_items (c a b : pyval) :
  two_items c = Some (a, b) -> coords c = None ->
  as_num a = None \/ (exists n, as_num a = Some n) /\ as_num b = None.
Proof.
  intros H Hc. destruct c as [| | | s | l | l]; simpl in H; try discriminate.
  - destruct s as [| c0 [| c1 [| c2 s]]]; try discriminate.
    inversion H; subst. left. reflexivity.
  - destruct l as [| x0 [| x1 [| x2 l]]]; try discriminate.
    inversion H; subst. simpl in Hc.
    destruct (as_num a); [| auto]. destruct (as_num b); [discriminate |].
    right. eauto.
  - destruct l as [| x0 [| x1 [| x2 l]]]; try discriminate.
    inversion H; subst. simpl in Hc.
    destruct (as_num a); [| auto]. destruct (as_num b); [discriminate |].
    right. eauto.
Qed.

Lemma py_add_non_numeric (b p : pyval) (n : Z) :
  as_num b = None -> as_num p = Some n -> py_add b p = Raise TypeError.
Proof.
  intros Hb Hp.
  destruct b; simpl in Hb; try discriminate;
    destruct p; simpl in Hp; try discriminate; reflexivity.
Qed.

Lemma quadrants_non_numeric (c p : pyval) (ox oy : Z) :
  _validate_input c = Ok true -> coords c = None -> valid_center p ox oy ->
  _get_circle_quadrants c p = Raise TypeError.
Proof.
  intros Vc Hc [Hp Vp].
  destruct (validated_items c Vc) as (a & b & Hab & _).
  destruct (two_items_getitem c a b Hab) as (G0 & G1 & _).
  destruct (coords_items p ox oy Hp) as (p0 & p1 & Gp0 & Gp1 & _ & Np0 & Np1).
  unfold _get_circle_quadrants. rewrite Vc. cbn [bind]. rewrite Vp. cbn [bind].
  rewrite G0, Gp0. cbn [bind].
  destruct (non_numeric_items c a b Hab Hc) as [Na | [[n Na] Nb]].
  - unfold py_sub. rewrite Na. reflexivity.
  - rewrite (py_sub_num a p0 n ox Na Np0). cbn [bind].
    rewrite G1, Gp1. cbn [bind].
    now rewrite (py_add_non_numeric b p1 oy Nb Np1).
Qed.

(** X6: a center that passes validation without being a pair of numbers
    (numeric strings pass) cannot be drawn: for every radius of at least 1,
    with or without fill, [get_circle_vectors] raises [TypeError] in the
    first reflection. *)
Theorem non_numeric_center_raises (c : pyval) (r : Z) (fill : bool) :
  _validate_input c = Ok true -> coords c = None -> 1 <= r ->
  get_circle_vectors c (PInt r) fill = Raise TypeError.
Proof.
  intros Vc Hc Hr. rewrite get_circle_vectors_int by assumption.
  rewrite perimeter_loop_eq.
  replace (st_x (initial_state (PInt r) r) <? 0) with true
    by (symmetry; apply Z.ltb_lt; simpl; lia).
  rewrite (quadrants_non_numeric c _ (- r) 0 Vc Hc)
    by (apply valid_center_pt; lia).
  reflexivity.
Qed.

Lemma non_numeric_center_raises_witness :
  _validate_input (PTuple [PStr "50"; PStr "50"]) = Ok true /\
  coords (PTuple [PStr "50"; PStr "50"]) = None /\ 1 <= 2 /\
  get_circle_vectors (PTuple [PStr "50"; PStr "50"]) (PInt 2) true
    = Raise TypeError.
Proof.
  split; [reflexivity |]. split; [reflexivity |]. split; [lia |].
  apply (non_numeric_center_raises (PTuple [PStr "50"; PStr "50"]) 2 true);
    [reflexivity | reflexivity | lia].
Defined.

(** ** Quadrant Reflector *)

(** X7: for a valid center and a valid offset [(ox, oy)] the four reflected
    points are pairwise different and all lie at the squared distance
    [ox^2 + oy^2] from the center. *)
Theorem quadrants_distinct_equidistant (c p : pyval) (cx cy ox oy : Z) :
  valid_center c cx cy -> valid_center p ox oy ->
  exists points,
    _get_circle_quadrants c p = Ok points /\
    NoDup points /\
    forall q, In q points ->
      exists qx qy,
        q = pt qx qy /\
        (qx - cx) * (qx - cx) + (qy - cy) * (qy - cy) = ox * ox + oy * oy.
Proof.
  intros Hc Hp. exists (quadrant_points cx cy ox oy).
  split; [apply (quadrants_of_coords c p cx cy ox oy Hc Hp) |].
  pose proof (valid_center_nonzero p ox oy Hp) as Hox.
  unfold quadrant_points. split.
  - repeat constructor; simpl; unfold pt; intros H;
      repeat (destruct H as [H | H]; [inversion H; lia |]); exact H.
  - intros q Hq. simpl in Hq.
    repeat (destruct Hq as [<- | Hq];
            [eexists; eexists; split; [reflexivity | ring] |]).
    contradiction.
Qed.

Lemma quadrants_distinct_equidistant_witness :
  valid_center (pt 50 50) 50 50 /\ valid_center (pt (-2) 1) (-2) 1 /\
  exists points,
    _get_circle_quadrants (pt 50 50) (pt (-2) 1) = Ok points /\
    NoDup points /\
    forall q, In q points ->
      exists qx qy,
        q = pt qx qy /\
        (qx - 50) * (qx - 50) + (qy - 50) * (qy - 50) = (-2) * (-2) + 1 * 1.
Proof.
  assert (Hc : valid_center (pt 50 50) 50 50) by (split; reflexivity).
  assert (Hp : valid_center (pt (-2) 1) (-2) 1) by (split; reflexivity).
  split; [exact Hc |]. split; [exact Hp |].
  apply (quadrants_distinct_equidistant (pt 50 50) (pt (-2) 1) 50 50 (-2) 1
           Hc Hp).
Defined.

(** ** The stepping loop *)

Lemma loop_body_step (st : loop_state) :
  st_x st <= st_x (loop_body st) <= st_x st + 1 /\
  st_y st <= st_y (loop_body st) <= st_y st + 1 /\
  st_x st + st_y st < st_x (loop_body st) + st_y (loop_body st).
Proof.
  destruct st as [x0 y0 e0 r0]. unfold loop_body. simpl.
  split_comparisons; lia.
Qed.

(** X8: every iteration of the loop body moves the offset to a neighbour:
    [x] and [y] each stay or grow by one, and at least one of them grows,
    whatever the values of the variables are. *)
Theorem loop_body_advances (st : loop_state) :
  (st_x (loop_body st) = st_x st \/ st_x (loop_body st) = st_x st + 1) /\
  (st_y (loop_body st) = st_y st \/ st_y (loop_body st) = st_y st + 1) /\
  (st_x (loop_body st), st_y (loop_body st)) <> (st_x st, st_y st).
Proof.
  pose proof (loop_body_step st) as (Hx & Hy & Hs).
  split; [lia |]. split; [lia |]. intros H. inversion H. lia.
Qed.

Lemma arc_invariant_initial (radius : pyval) (r : Z) :
  1 <= r -> arc_invariant r (initial_state radius r).
Proof.
  intros Hr. split; [apply initial_state_invariant |].
  cbv [initial_state st_x st_y]. repeat split; nia.
Qed.

Lemma arc_invariant_body (r : Z) (st : loop_state) :
  1 <= r -> arc_invariant r st -> st_x st < 0 ->
  arc_invariant r (loop_body st).
Proof.
  intros Hr (He & Hx & Hy & Hd) Hneg.
  split; [now apply loop_body_invariant |].
  destruct st as [x0 y0 e0 r0]. unfold error_invariant, loop_body in *.
  simpl in *. subst e0.
  split_comparisons; repeat split; nia.
Qed.

Lemma loop_run_arc (r : Z) (st : loop_state) (visited : list loop_state)
    (final : loop_state) :
  1 <= r -> loop_run st visited final -> arc_invariant r st ->
  Forall (fun s => arc_invariant r s /\ st_x s < 0) visited.
Proof.
  intros Hr Hrun.
  induction Hrun as [st Hx | st visited final Hx _ IH]; intros Hinv;
    constructor; auto using arc_invariant_body.
Qed.

Lemma loop_run_min_length (st : loop_state) (visited : list loop_state)
    (final : loop_state) :
  loop_run st visited final -> - st_x st <= Z.of_nat (List.length visited).
Proof.
  induction 1 as [st Hx | st visited final Hx _ IH]; cbn [List.length].
  - lia.
  - pose proof (loop_body_step st). lia.
Qed.

Lemma loop_run_sorted (st : loop_state) (visited : list loop_state)
    (final : loop_state) :
  loop_run st visited final ->
  Forall (fun s => st_x st + st_y st <= st_x s + st_y s) visited /\
  StronglySorted (fun s t => st_x s + st_y s < st_x t + st_y t) visited.
Proof.
  induction 1 as [st Hx | st visited final Hx _ [IH1 IH2]].
  - split; constructor.
  - pose proof (loop_body_step st) as (_ & _ & Hs). split.
    + constructor; [lia |].
      eapply Forall_impl; [| exact IH1]. simpl. intros; lia.
    + constructor; [assumption |].
      eapply Forall_impl; [| exact IH1]. simpl. intros; lia.
Qed.

Lemma in_emitted (cx cy : Z) (visited : list loop_state) (q : pyval) :
  In q (emitted cx cy visited) <->
  exists s, In s visited /\ In q (quadrant_points cx cy (st_x s) (st_y s)).
Proof. unfold emitted. apply in_flat_map. Qed.

Lemma pt_eq (a b a' b' : Z) : a = a' -> b = b' -> pt a b = pt a' b'.
Proof. intros -> ->. reflexivity. Qed.

(** Chooses the element of a list of points that a goal [In q l] is about,
    comparing coordinates with [lia]. *)
Ltac pick_point :=
  simpl;
  repeat first [ left; apply pt_eq; lia | right ].

(** ** The perimeter *)

(** X9: for a valid center and a radius [r >= 0], the perimeter has at
    least [4 * r] and at most [8 * r] points (none for a negative
    radius): the loop runs between [r] and [2 * r] times. *)
Theorem perimeter_size_bounds (c : pyval) (cx cy r : Z) :
  valid_center c cx cy ->
  exists points,
    get_circle_vectors c (PInt r) false = Ok points /\
    4 * Z.max 0 r <= Z.of_nat (List.length points) <= 8 * Z.max 0 r.
Proof.
  intros Hc.
  destruct (loop_run_total (initial_state (PInt r) r)) as (visited & final & Hrun).
  exists (emitted cx cy visited).
  split; [apply (get_circle_vectors_run c cx cy r false _ _ Hc Hrun) |].
  rewrite emitted_length.
  pose proof (loop_iterations_bound (PInt r) r visited final Hrun) as Hup.
  pose proof (loop_run_min_length _ _ _ Hrun) as Hlow.
  cbn [initial_state st_x] in Hlow. lia.
Qed.

Lemma perimeter_size_bounds_witness :
  valid_center (pt 50 50) 50 50 /\
  exists points,
    get_circle_vectors (pt 50 50) (PInt 2) false = Ok points /\
    4 * Z.max 0 2 <= Z.of_nat (List.length points) <= 8 * Z.max 0 2.
Proof.
  assert (H : valid_center (pt 50 50) 50 50) by (split; reflexivity).
  split; [exact H | apply (perimeter_size_bounds (pt 50 50) 50 50 2 H)].
Defined.

Lemma emitted_near_circle (cx cy r : Z) (visited : list loop_state)
    (final : loop_state) (q : pyval) :
  loop_run (initial_state (PInt r) r) visited final ->
  In q (emitted cx cy visited) ->
  exists qx qy,
    q = pt qx qy /\
    cx - r <= qx <= cx + r /\ cy - r <= qy <= cy + r /\
    - r < (qx - cx) * (qx - cx) + (qy - cy) * (qy - cy) - r * r < r.
Proof.
  intros Hrun Hq. apply in_emitted in Hq. destruct Hq as (s & Hs & Hq).
  destruct (Z_lt_le_dec r 1) as [Hr | Hr].
  { inversion Hrun; subst; [contradiction |].
    cbn [initial_state st_x] in *. lia. }
  pose proof (loop_run_arc r _ _ _ Hr Hrun
                (arc_invariant_initial (PInt r) r Hr)) as Harc.
  rewrite Forall_forall in Harc.
  destruct (Harc s Hs) as ((_ & Hx & Hy & Hd) & _).
  unfold quadrant_points in Hq. simpl in Hq.
  repeat (destruct Hq as [<- | Hq];
          [eexists; eexists; split; [reflexivity | repeat split; nia] |]).
  contradiction.
Qed.

(** X10: for a valid center [(cx, cy)] and an integer radius [r], every
    point of the perimeter is a pair of integers inside the square of half
    side [r] around the center, and the square of its distance to the
    center differs from [r * r] by less than [r]. *)
Theorem perimeter_points_near_circle (c : pyval) (cx cy r : Z) :
  valid_center c cx cy ->
  exists points,
    get_circle_vectors c (PInt r) false = Ok points /\
    forall q, In q points ->
      exists qx qy,
        q = pt qx qy /\
        cx - r <= qx <= cx + r /\ cy - r <= qy <= cy + r /\
        - r < (qx - cx) * (qx - cx) + (qy - cy) * (qy - cy) - r * r < r.
Proof.
  intros Hc.
  destruct (loop_run_total (initial_state (PInt r) r)) as (visited & final & Hrun).
  exists (emitted cx cy visited).
  split; [apply (get_circle_vectors_run c cx cy r false _ _ Hc Hrun) |].
  intros q Hq. apply (emitted_near_circle cx cy r visited final q Hrun Hq).
Qed.

Lemma perimeter_points_near_circle_witness :
  valid_center (pt 50 50) 50 50 /\
  exists points,
    get_circle_vectors (pt 50 50) (PInt 7) false = Ok points /\
    forall q, In q points ->
      exists qx qy,
        q = pt qx qy /\
        50 - 7 <= qx <= 50 + 7 /\ 50 - 7 <= qy <= 50 + 7 /\
        - 7 < (qx - 50) * (qx - 50) + (qy - 50) * (qy - 50) - 7 * 7 < 7.
Proof.
  assert (H : valid_center (pt 50 50) 50 50) by (split; reflexivity).
  split; [exact H | apply (perimeter_points_near_circle (pt 50 50) 50 50 7 H)].
Defined.

(** X11: the perimeter is unchanged by a quarter turn about the center:
    with each point [(qx, qy)] it contains the point
    [(cx - (qy - cy), cy + (qx - cx))]. *)
Theorem perimeter_quarter_turn (c : pyval) (cx cy r : Z) :
  valid_center c cx cy ->
  exists points,
    get_circle_vectors c (PInt r) false = Ok points /\
    forall qx qy,
      In (pt qx qy) points ->
      In (pt (cx - (qy - cy)) (cy + (qx - cx))) points.
Proof.
  intros Hc.
  destruct (loop_run_total (initial_state (PInt r) r)) as (visited & final & Hrun).
  exists (emitted cx cy visited).
  split; [apply (get_circle_vectors_run c cx cy r false _ _ Hc Hrun) |].
  intros qx qy Hq. apply in_emitted in Hq. destruct Hq as (s & Hs & Hq).
  apply in_emitted. exists s. split; [assumption |].
  unfold quadrant_points in *. simpl in Hq.
  repeat (destruct Hq as [Hq | Hq]; [inversion Hq; subst; pick_point |]).
  contradiction.
Qed.

Lemma perimeter_quarter_turn_witness :
  valid_center (pt 50 50) 50 50 /\
  exists points,
    get_circle_vectors (pt 50 50) (PInt 2) false = Ok points /\
    forall qx qy,
      In (pt qx qy) points ->
      In (pt (50 - (qy - 50)) (50 + (qx - 50))) points.
Proof.
  assert (H : valid_center (pt 50 50) 50 50) by (split; reflexivity).
  split; [exact H | apply (perimeter_quarter_turn (pt 50 50) 50 50 2 H)].
Defined.

Lemma emitted_nodup (cx cy : Z) (visited : list loop_state) :
  Forall (fun s => st_x s < 0 /\ 0 <= st_y s) visited ->
  StronglySorted (fun s t => st_x s + st_y s < st_x t + st_y t) visited ->
  NoDup (emitted cx cy visited).
Proof.
  intros Hq Hsorted.
  induction Hsorted as [| s visited Hsorted IH Hs]; [constructor |].
  inversion Hq as [| ? ? [Hx Hy] Hq']; subst.
  change (emitted cx cy (s :: visited))
    with (quadrant_points cx cy (st_x s) (st_y s) ++ emitted cx cy visited).
  apply NoDup_app; [| now apply IH |].
  - unfold quadrant_points.
    repeat constructor; simpl; unfold pt; intros H;
      repeat (destruct H as [H | H]; [inversion H; lia |]); exact H.
  - intros q Hin Hin'. apply in_emitted in Hin'.
    destruct Hin' as (t & Ht & Hin').
    rewrite Forall_forall in Hs, Hq'.
    specialize (Hs t Ht). destruct (Hq' t Ht) as [Hxt Hyt].
    unfold quadrant_points in *. simpl in Hin, Hin'.
    repeat (destruct Hin as [Hin | Hin];
            [subst q;
             repeat (destruct Hin' as [Hin' | Hin'];
                     [inversion Hin'; lia |]);
             contradiction |]).
    contradiction.
Qed.

(** X12: for a valid center and an integer radius, no point occurs twice
    in the perimeter. *)
Theorem perimeter_no_duplicates (c : pyval) (cx cy r : Z) :
  valid_center c cx cy ->
  exists points,
    get_circle_vectors c (PInt r) false = Ok points /\ NoDup points.
Proof.
  intros Hc.
  destruct (loop_run_total (initial_state (PInt r) r)) as (visited & final & Hrun).
  exists (emitted cx cy visited).
  split; [apply (get_circle_vectors_run c cx cy r false _ _ Hc Hrun) |].
  destruct (Z_lt_le_dec r 1) as [Hr | Hr].
  { inversion Hrun; subst; [constructor |].
    cbn [initial_state st_x] in *. lia. }
  apply emitted_nodup; [| apply (loop_run_sorted _ _ _ Hrun)].
  eapply Forall_impl;
    [| apply (loop_run_arc r _ _ _ Hr Hrun
                (arc_invariant_initial (PInt r) r Hr))].
  simpl. intros s ((_ & _ & Hy & _) & Hx). lia.
Qed.

Lemma perimeter_no_duplicates_witness :
  valid_center (pt 50 50) 50 50 /\
  exists points,
    get_circle_vectors (pt 50 50) (PInt 2) false = Ok points /\ NoDup points.
Proof.
  assert (H : valid_center (pt 50 50) 50 50) by (split; reflexivity).
  split; [exact H | apply (perimeter_no_duplicates (pt 50 50) 50 50 2 H)].
Defined.

(** X13: for a valid center and a radius [r >= 1], with or without fill,
    the result begins with the four points of the circle on the axes
    through the center: right, above, left, below. *)
Theorem perimeter_starts_on_axes (c : pyval) (cx cy r : Z) (fill : bool) :
  valid_center c cx cy -> 1 <= r ->
  exists rest,
    get_circle_vectors c (PInt r) fill =
      Ok ([pt (cx + r) cy; pt cx (cy + r); pt (cx - r) cy; pt cx (cy - r)]
            ++ rest).
Proof.
  intros Hc Hr.
  destruct (loop_run_total (initial_state (PInt r) r)) as (visited & final & Hrun).
  rewrite (get_circle_vectors_run c cx cy r fill _ _ Hc Hrun).
  inversion Hrun as [? Hx | ? visited' ? Hx Hrun']; subst;
    [cbn [initial_state st_x] in Hx; lia |].
  change (emitted cx cy (initial_state (PInt r) r :: visited'))
    with (quadrant_points cx cy (- r) 0 ++ emitted cx cy visited').
  assert (E : quadrant_points cx cy (- r) 0 =
              [pt (cx + r) cy; pt cx (cy + r); pt (cx - r) cy; pt cx (cy - r)]).
  { unfold quadrant_points.
    repeat (apply f_equal2; [apply pt_eq; lia |]). reflexivity. }
  rewrite E. destruct fill.
  - destruct (loop_run_radius_int r _ _ Hrun) as [e ->].
    rewrite (scanner_of_coords c cx cy e Hc). cbn [bind].
    rewrite <- app_assoc. eauto.
  - eauto.
Qed.

Lemma perimeter_starts_on_axes_witness :
  valid_center (pt 50 50) 50 50 /\ 1 <= 2 /\
  exists rest,
    get_circle_vectors (pt 50 50) (PInt 2) true =
      Ok ([pt (50 + 2) 50; pt 50 (50 + 2); pt (50 - 2) 50; pt 50 (50 - 2)]
            ++ rest).
Proof.
  assert (H : valid_center (pt 50 50) 50 50) by (split; reflexivity).
  split; [exact H |]. split; [lia |].
  apply (perimeter_starts_on_axes (pt 50 50) 50 50 2 true H). lia.
Defined.

(** ** Interior Scanner *)

Lemma in_scan (cx cy r qx qy : Z) :
  In (pt qx qy) (map (shift cx cy) (disk_offsets r)) <->
  cx - r <= qx <= cx + r /\ cy - r <= qy <= cy + r /\
  (qx - cx) * (qx - cx) + (qy - cy) * (qy - cy) <= r * r.
Proof.
  rewrite in_map_iff. split.
  - intros ([dx dy] & Heq & Hin). unfold shift in Heq. simpl in Heq.
    inversion Heq; subst. apply in_disk_offsets in Hin.
    destruct Hin as (Hx & Hy & Hd).
    replace (cx + dx - cx) with dx by lia.
    replace (cy + dy - cy) with dy by lia. lia.
  - intros (Hx & Hy & Hd). exists (qx - cx, qy - cy). split.
    + unfold shift. simpl. apply pt_eq; lia.
    + apply in_disk_offsets. lia.
Qed.

Lemma sorted_offsets_nodup (l : list (Z * Z)) :
  StronglySorted row_major_lt l -> NoDup l.
Proof.
  induction 1 as [| a l _ IH Ha]; constructor; [| assumption].
  intros Hin. rewrite Forall_forall in Ha. specialize (Ha a Hin).
  unfold row_major_lt in Ha. lia.
Qed.

Lemma shift_nodup (cx cy : Z) (l : list (Z * Z)) :
  NoDup l -> NoDup (map (shift cx cy) l).
Proof.
  induction 1 as [| a l Ha _ IH]; simpl; constructor; [| assumption].
  intros Hin. apply in_map_iff in Hin. destruct Hin as ([dx dy] & Heq & Hin).
  destruct a as [ax ay]. unfold shift in Heq. simpl in Heq.
  inversion Heq. apply Ha.
  replace ax with dx by lia. replace ay with dy by lia. assumption.
Qed.

Lemma flat_map_length_le {A B} (f : A -> list B) (l : list A) (k : nat) :
  (forall a, List.length (f a) <= k)%nat ->
  (List.length (flat_map f l) <= List.length l * k)%nat.
Proof.
  intros Hf. induction l as [| a l IH]; simpl; [lia |].
  rewrite length_app. specialize (Hf a). lia.
Qed.

Lemma py_range_length (lo hi : Z) :
  List.length (py_range lo hi) = Z.to_nat (hi - lo).
Proof. unfold py_range. now rewrite length_map, length_seq. Qed.

Lemma disk_offsets_length (r : Z) :
  0 <= r ->
  Z.of_nat (List.length (disk_offsets r)) <= (2 * r + 1) * (2 * r + 1).
Proof.
  intros Hr. unfold disk_offsets.
  pose proof (flat_map_length_le (row_offsets r) (py_range (- r) (r + 1))
                (Z.to_nat (2 * r + 1))) as H.
  rewrite py_range_length in H.
  replace (r + 1 - - r) with (2 * r + 1) in H by lia.
  assert (Hrow : forall dy,
             (List.length (row_offsets r dy) <= Z.to_nat (2 * r + 1))%nat).
  { intros dy. unfold row_offsets. rewrite length_map.
    etransitivity; [apply filter_length_le |].
    rewrite py_range_length. lia. }
  specialize (H Hrow). nia.
Qed.

(** X14: for a valid center and a radius [r >= 0] the Interior Scanner
    returns no point twice, returns the center, and returns at most
    [(2 * r + 1) ^ 2] points. *)
Theorem interior_scanner_size (c : pyval) (cx cy r : Z) :
  valid_center c cx cy -> 0 <= r ->
  exists points,
    _get_vectors_inside_circle c (PInt r) = Ok points /\
    NoDup points /\
    In (pt cx cy) points /\
    Z.of_nat (List.length points) <= (2 * r + 1) * (2 * r + 1).
Proof.
  intros Hc Hr. exists (map (shift cx cy) (disk_offsets r)).
  split; [apply (scanner_of_coords c cx cy r Hc) |].
  split; [apply shift_nodup, sorted_offsets_nodup, disk_offsets_sorted |].
  split; [apply in_scan; nia |].
  rewrite length_map. now apply disk_offsets_length.
Qed.

Lemma interior_scanner_size_witness :
  valid_center (pt 50 50) 50 50 /\ 0 <= 2 /\
  exists points,
    _get_vectors_inside_circle (pt 50 50) (PInt 2) = Ok points /\
    NoDup points /\
    In (pt 50 50) points /\
    Z.of_nat (List.length points) <= (2 * 2 + 1) * (2 * 2 + 1).
Proof.
  assert (H : valid_center (pt 50 50) 50 50) by (split; reflexivity).
  split; [exact H |]. split; [lia |].
  apply (interior_scanner_size (pt 50 50) 50 50 2 H). lia.
Defined.

(** ** How the perimeter and the scan fit together *)

(** X15: for a valid center and a radius [r >= 1], every point of the
    perimeter lies in the scan of radius [r + 1] and outside the scan of
    radius [r - 1]. *)
Theorem perimeter_between_scans (c : pyval) (cx cy r : Z) :
  valid_center c cx cy -> 1 <= r ->
  exists perimeter inner outer,
    get_circle_vectors c (PInt r) false = Ok perimeter /\
    _get_vectors_inside_circle c (PInt (r - 1)) = Ok inner /\
    _get_vectors_inside_circle c (PInt (r + 1)) = Ok outer /\
    forall q, In q perimeter -> In q outer /\ ~ In q inner.
Proof.
  intros Hc Hr.
  destruct (loop_run_total (initial_state (PInt r) r)) as (visited & final & Hrun).
  exists (emitted cx cy visited),
    (map (shift cx cy) (disk_offsets (r - 1))),
    (map (shift cx cy) (disk_offsets (r + 1))).
  split; [apply (get_circle_vectors_run c cx cy r false _ _ Hc Hrun) |].
  split; [apply (scanner_of_coords c cx cy (r - 1) Hc) |].
  split; [apply (scanner_of_coords c cx cy (r + 1) Hc) |].
  intros q Hq.
  destruct (emitted_near_circle cx cy r visited final q Hrun Hq)
    as (qx & qy & -> & Hx & Hy & Hd).
  split.
  - apply in_scan. nia.
  - intros Hin. apply in_scan in Hin. nia.
Qed.

Lemma perimeter_between_scans_witness :
  valid_center (pt 50 50) 50 50 /\ 1 <= 2 /\
  exists perimeter inner outer,
    get_circle_vectors (pt 50 50) (PInt 2) false = Ok perimeter /\
    _get_vectors_inside_circle (pt 50 50) (PInt (2 - 1)) = Ok inner /\
    _get_vectors_inside_circle (pt 50 50) (PInt (2 + 1)) = Ok outer /\
    forall q, In q perimeter -> In q outer /\ ~ In q inner.
Proof.
  assert (H : valid_center (pt 50 50) 50 50) by (split; reflexivity).
  split; [exact H |]. split; [lia |].
  apply (perimeter_between_scans (pt 50 50) 50 50 2 H). lia.
Defined.

(** X16: perimeters about the same valid center with different radii have
    no point in common. *)
Theorem perimeters_disjoint (c : pyval) (cx cy r1 r2 : Z) :
  valid_center c cx cy -> r1 < r2 ->
  exists points1 points2,
    get_circle_vectors c (PInt r1) false = Ok points1 /\
    get_circle_vectors c (PInt r2) false = Ok points2 /\
    forall q, In q points1 -> ~ In q points2.
Proof.
  intros Hc Hr.
  destruct (loop_run_total (initial_state (PInt r1) r1)) as (v1 & f1 & Hrun1).
  destruct (loop_run_total (initial_state (PInt r2) r2)) as (v2 & f2 & Hrun2).
  exists (emitted cx cy v1), (emitted cx cy v2).
  split; [apply (get_circle_vectors_run c cx cy r1 false _ _ Hc Hrun1) |].
  split; [apply (get_circle_vectors_run c cx cy r2 false _ _ Hc Hrun2) |].
  intros q Hq1 Hq2.
  destruct (emitted_near_circle cx cy r1 v1 f1 q Hrun1 Hq1)
    as (qx & qy & -> & _ & _ & Hd1).
  destruct (emitted_near_circle cx cy r2 v2 f2 _ Hrun2 Hq2)
    as (qx' & qy' & Heq & _ & _ & Hd2).
  inversion Heq; subst qx' qy'. nia.
Qed.

Lemma perimeters_disjoint_witness :
  valid_center (pt 50 50) 50 50 /\ 2 < 3 /\
  exists points1 points2,
    get_circle_vectors (pt 50 50) (PInt 2) false = Ok points1 /\
    get_circle_vectors (pt 50 50) (PInt 3) false = Ok points2 /\
    forall q, In q points1 -> ~ In q points2.
Proof.
  assert (H : valid_center (pt 50 50) 50 50) by (split; reflexivity).
  split; [exact H |]. split; [lia |].
  apply (perimeters_disjoint (pt 50 50) 50 50 2 3 H). lia.
Defined.

Lemma final_radius_value (r : Z) (st : loop_state)
    (visited : list loop_state) (final : loop_state) :
  2 <= r -> loop_run st visited final -> arc_invariant r st -> st_x st < 0 ->
  st_radius final = PInt (2 * r + 1).
Proof.
  intros Hr Hrun.
  induction Hrun as [st Hx | st visited final Hx Hrun IH]; intros Hinv Hneg;
    [lia |].
  pose proof (arc_invariant_body r st ltac:(lia) Hinv Hneg) as Hinv'.
  destruct (Z_lt_le_dec (st_x (loop_body st)) 0) as [Hx' | Hx'].
  - now apply IH.
  - inversion Hrun; subst; [| lia].
    rewrite loop_body_radius. f_equal.
    pose proof (loop_body_step st) as (Hs & _).
    destruct Hinv as (He & Hbx & Hby & Hd).
    unfold error_invariant in He. rewrite He.
    assert (Hx1 : st_x st = -1) by lia. rewrite Hx1 in *.
    assert (Hy : st_y st = r) by nia.
    rewrite Hy. ring.
Qed.

(** X17: for a valid center and a radius [r >= 2], the points that fill
    appends after the perimeter are the scan of radius [2 * r + 1], the
    value the loop leaves in [radius]; every point of the perimeter occurs
    again among them. *)
Theorem fill_scans_twice_the_radius (c : pyval) (cx cy r : Z) :
  valid_center c cx cy -> 2 <= r ->
  exists perimeter inside,
    get_circle_vectors c (PInt r) false = Ok perimeter /\
    _get_vectors_inside_circle c (PInt (2 * r + 1)) = Ok inside /\
    get_circle_vectors c (PInt r) true = Ok (perimeter ++ inside) /\
    forall q, In q perimeter -> In q inside.
Proof.
  intros Hc Hr.
  destruct (loop_run_total (initial_state (PInt r) r)) as (visited & final & Hrun).
  exists (emitted cx cy visited), (map (shift cx cy) (disk_offsets (2 * r + 1))).
  split; [apply (get_circle_vectors_run c cx cy r false _ _ Hc Hrun) |].
  split; [apply (scanner_of_coords c cx cy _ Hc) |].
  split.
  - rewrite (get_circle_vectors_run c cx cy r true _ _ Hc Hrun).
    rewrite (final_radius_value r _ visited final Hr Hrun
               (arc_invariant_initial (PInt r) r ltac:(lia)))
      by (cbn [initial_state st_x]; lia).
    now rewrite (scanner_of_coords c cx cy _ Hc).
  - intros q Hq.
    destruct (emitted_near_circle cx cy r visited final q Hrun Hq)
      as (qx & qy & -> & Hx & Hy & Hd).
    apply in_scan. nia.
Qed.

Lemma fill_scans_twice_the_radius_witness :
  valid_center (pt 50 50) 50 50 /\ 2 <= 2 /\
  exists perimeter inside,
    get_circle_vectors (pt 50 50) (PInt 2) false = Ok perimeter /\
    _get_vectors_inside_circle (pt 50 50) (PInt (2 * 2 + 1)) = Ok inside /\
    get_circle_vectors (pt 50 50) (PInt 2) true = Ok (perimeter ++ inside) /\
    forall q, In q perimeter -> In q inside.
Proof.
  assert (H : valid_center (pt 50 50) 50 50) by (split; reflexivity).
  split; [exact H |]. split; [lia |].
  apply (fill_scans_twice_the_radius (pt 50 50) 50 50 2 H). lia.
Defined.

(** X18: for a valid center, fill with radius 0 returns the center alone,
    and fill with radius 1 returns the four axis points followed by the
    center alone. *)
Theorem fill_small_radii (c : pyval) (cx cy : Z) :
  valid_center c cx cy ->
  get_circle_vectors c (PInt 0) true = Ok [pt cx cy] /\
  get_circle_vectors c (PInt 1) true =
    Ok [pt (cx + 1) cy; pt cx (cy + 1); pt (cx - 1) cy; pt cx (cy - 1);
        pt cx cy].
Proof.
  intros Hc. split.
  - rewrite get_circle_vectors_not_entered by (apply Hc || lia).
    rewrite (scanner_of_coords c cx cy 0 Hc), disk_offsets_zero.
    unfold shift. simpl. now rewrite !Z.add_0_r.
  - assert (Hrun : loop_run (initial_state (PInt 1) 1)
                     [initial_state (PInt 1) 1] (LoopState 0 1 4 (PInt 0))).
    { apply run_iter; [simpl; lia |]. apply run_exit. simpl. lia. }
    rewrite (get_circle_vectors_run c cx cy 1 true _ _ Hc Hrun).
    cbn [st_radius]. rewrite (scanner_of_coords c cx cy 0 Hc), disk_offsets_zero.
    cbn [bind map emitted flat_map initial_state st_x st_y app].
    unfold quadrant_points, shift. cbn [fst snd app].
    f_equal. repeat (apply f_equal2; [apply pt_eq; lia |]). reflexivity.
Qed.

Lemma fill_small_radii_witness :
  valid_center (pt 25 25) 25 25 /\
  get_circle_vectors (pt 25 25) (PInt 0) true = Ok [pt 25 25].
Proof.
  assert (H : valid_center (pt 25 25) 25 25) by (split; reflexivity).
  split; [exact H |].
  apply (fill_small_radii (pt 25 25) 25 25 H).
Defined.
